(** * E-Stat MCP server: a shallow embedding of [estat_mcp_server/server.py]

    The server exposes five read-only operations.  Each one formats a URL
    with an f-string and hands it to [make_e_stat_request], which performs
    one HTTP GET and turns every exception into a hand-written JSON text.

    Python [str] values are modelled as [string] (the UTF-8 bytes of the
    text), Python [int] values as [Z], [Optional[str]] as [option string].
    Exceptions and the log of outbound GETs are threaded through a small
    state-and-exception monad. *)

From Stdlib Require Import ZArith String Ascii List Bool Lia DecimalString.
From Stdlib Require Import DecimalPos DecimalZ.
Import ListNotations.

Open Scope string_scope.

(** ** Python string and formatting primitives *)

Module PyStr.

(** The double-quote character (code 34), written with a backslash in the
    f-strings of the source. *)
Definition dq : string := String "034"%char EmptyString.

(** [quoted s] is the text of [s] between two double quotes. *)
Definition quoted (s : string) : string := dq ++ s ++ dq.

(** [str(n)], and [{n}] inside an f-string, for an [int]: the decimal
    numeral, with a leading minus sign for a negative value. *)
Definition str_int (n : Z) : string := NilZero.string_of_int (Z.to_int n).

(** [{x}] inside an f-string for an [Optional[str]]: the text itself,
    or [None]. *)
Definition format_opt (x : option string) : string :=
  match x with
  | Some s => s
  | None => "None"
  end.

(** The truth value of an [Optional[str]] in a condition: [None] and the
    empty text are false, every other text is true. *)
Definition truthy (x : option string) : bool :=
  match x with
  | None => false
  | Some EmptyString => false
  | Some (String _ _) => true
  end.

(** [s.startswith(p)]. *)
Fixpoint startswith (s p : string) {struct p} : bool :=
  match p with
  | EmptyString => true
  | String a p' =>
      match s with
      | EmptyString => false
      | String b s' => Ascii.eqb a b && startswith s' p'
      end
  end.

(** [sub in s]. *)
Fixpoint contains (s sub : string) : bool :=
  startswith s sub ||
  match s with
  | EmptyString => false
  | String _ s' => contains s' sub
  end.

(** The text that remains of [s] after its first [k] characters. *)
Fixpoint drop (k : nat) (s : string) : string :=
  match k, s with
  | O, _ => s
  | S _, EmptyString => EmptyString
  | S k', String _ s' => drop k' s'
  end.

(** Every character of [s] satisfies [p]. *)
Fixpoint all_chars (p : ascii -> bool) (s : string) : bool :=
  match s with
  | EmptyString => true
  | String c s' => p c && all_chars p s'
  end.

(** The characters a decimal numeral is made of. *)
Definition numeral_char (c : ascii) : bool :=
  let n := nat_of_ascii c in
  ((48 <=? n)%nat && (n <=? 57)%nat) || (n =? 45)%nat.

End PyStr.

Import PyStr.

(** ** Exceptions, requests and responses *)

(** What the handler of [make_e_stat_request] observes of an exception [e]
    caught by [except Exception]: the three [isinstance] tests, the status
    code read through [e.response.status_code] (an [HTTPStatusError] always
    carries its response), and [str(e)].  Signals that are not instances of
    [Exception] (task cancellation, interpreter exit) are not faults and
    are outside this type. *)
Record Exc : Type := mkExc {
  exc_class : string;
  is_TimeoutException : bool;
  is_ConnectError : bool;
  as_HTTPStatusError : option Z;
  exc_str : string
}.

(** [ValueError(msg)]. *)
Definition ValueError (msg : string) : Exc :=
  mkExc "ValueError" false false None msg.

(** One outbound GET: the URL given to [client.get] and the timeout the
    client was built with. *)
Record Request : Type := mkRequest {
  req_url : string;
  req_timeout : Z
}.

(** The part of an [httpx.Response] the program reads. *)
Record Response : Type := mkResponse {
  status_code : Z;
  text : string
}.

(** What [await client.get(url)] does: it answers or it raises. *)
Inductive GetOutcome : Type :=
| Responded (r : Response)
| Faulted (e : Exc).

(** ** The effect monad: a log of outbound GETs and Python exceptions *)

Inductive Result (A : Type) : Type :=
| Returned (a : A)
| Raised (e : Exc).

Arguments Returned {A} a.
Arguments Raised {A} e.

Definition Log : Type := list Request.

Definition Eff (A : Type) : Type := Log -> Result A * Log.

Definition ret {A : Type} (a : A) : Eff A :=
  fun log => (Returned a, log).

Definition raise {A : Type} (e : Exc) : Eff A :=
  fun log => (Raised e, log).

Definition bind {A B : Type} (m : Eff A) (k : A -> Eff B) : Eff B :=
  fun log =>
    match m log with
    | (Returned a, log') => k a log'
    | (Raised e, log') => (Raised e, log')
    end.

(** [try: body except Exception as e: handler e]. *)
Definition try_except {A : Type} (body : Eff A) (handler : Exc -> Eff A)
  : Eff A :=
  fun log =>
    match body log with
    | (Returned a, log') => (Returned a, log')
    | (Raised e, log') => handler e log'
    end.

Declare Scope eff_scope.
Delimit Scope eff_scope with eff.
Notation "x <- m ;; k" := (bind m (fun x => k))
  (at level 61, m at next level, right associativity) : eff_scope.
Notation "m ;;; k" := (bind m (fun _ => k))
  (at level 61, right associativity) : eff_scope.

(** ** The program *)

Definition E_STAT_API_BASE_URL : string :=
  "https://api.e-stat.go.jp/rest/3.0/app/".

(** The defaults of the keyword arguments. *)
Definition default_timeout : Z := 30.
Definition default_startPosition : Z := 1.
Definition default_limit : Z := 100.

Section Server.

(** [os.getenv] of the variable [E_STAT_APP_ID], read once when the
    module is loaded. *)
Variable E_STAT_APP_ID : option string.

(** The [httpx] library and the remote service behind it: which status
    codes [raise_for_status] lets through, the text of the exception it
    raises otherwise, and the outcome of a GET given the GETs made so
    far. *)
Variable is_success : Z -> bool.
Variable status_error_text : Response -> string.
Variable network : Log -> Request -> GetOutcome.

(** [httpx.AsyncClient(timeout=timeout)] followed by
    [await client.get(url)]: the GET is logged, then answers or raises. *)
Definition client_get (url : string) (timeout : Z) : Eff Response :=
  fun log =>
    let req := mkRequest url timeout in
    match network log req with
    | Responded r => (Returned r, (log ++ [req])%list)
    | Faulted e => (Raised e, (log ++ [req])%list)
    end.

(** [response.raise_for_status()]. *)
Definition raise_for_status (response : Response) : Eff unit :=
  if is_success (status_code response) then ret tt
  else raise (mkExc "HTTPStatusError" false false
                (Some (status_code response))
                (status_error_text response)).

Definition make_e_stat_request (url : string) (timeout : Z) : Eff string :=
  try_except
    (response <- client_get url timeout ;;
     raise_for_status response ;;;
     ret (text response))%eff
    (fun e =>
       if is_TimeoutException e then
         let error_msg :=
           "タイムアウトエラーが発生しました。現在のタイムアウト設定: "
           ++ str_int timeout ++ "秒" in
         ret ("{" ++ dq ++ "ERROR" ++ dq ++ ": " ++ dq ++ error_msg ++ dq
              ++ ", " ++ dq ++ "status" ++ dq ++ ": " ++ dq ++ "timeout"
              ++ dq ++ "}")
       else if is_ConnectError e then
         let error_msg :=
           "E-Stat APIサーバーへの接続に失敗しました。ネットワーク接続を確認してください。" in
         ret ("{" ++ dq ++ "ERROR" ++ dq ++ ": " ++ dq ++ error_msg ++ dq
              ++ ", " ++ dq ++ "status" ++ dq ++ ": " ++ dq
              ++ "connection_error" ++ dq ++ "}")
       else
         match as_HTTPStatusError e with
         | Some status_code =>
             let error_msg :=
               "HTTPエラー（ステータスコード: " ++ str_int status_code
               ++ "）が発生しました。" in
             ret ("{" ++ dq ++ "ERROR" ++ dq ++ ": " ++ dq ++ error_msg ++ dq
                  ++ ", " ++ dq ++ "status" ++ dq ++ ": " ++ dq
                  ++ "http_error" ++ dq ++ ", " ++ dq ++ "status_code" ++ dq
                  ++ ": " ++ str_int status_code ++ "}")
         | None =>
             let error_msg :=
               "予期せぬエラーが発生しました: " ++ exc_str e in
             ret ("{" ++ dq ++ "ERROR" ++ dq ++ ": " ++ dq ++ error_msg ++ dq
                  ++ ", " ++ dq ++ "status" ++ dq ++ ": " ++ dq
                  ++ "unknown_error" ++ dq ++ "}")
         end).

Definition search_e_stat_tables
    (search_word surveyYears : string) (startPosition limit : Z)
  : Eff string :=
  let url :=
    E_STAT_API_BASE_URL ++ "getStatsList?appId=" ++ format_opt E_STAT_APP_ID
    ++ "&searchWord=" ++ search_word ++ "&limit=" ++ str_int limit
    ++ "&surveyYears=" ++ surveyYears
    ++ "&startPosition=" ++ str_int startPosition in
  make_e_stat_request url default_timeout.

Definition get_e_stat_meta_info (stats_data_id : string) : Eff string :=
  let url :=
    E_STAT_API_BASE_URL ++ "getMetaInfo?appId=" ++ format_opt E_STAT_APP_ID
    ++ "&statsDataId=" ++ stats_data_id in
  make_e_stat_request url default_timeout.

Definition get_specific_e_stat_data
    (data_set_id stats_data_id : option string) (startPosition limit : Z)
  : Eff string :=
  let url :=
    E_STAT_API_BASE_URL ++ "getSimpleStatsData?appId="
    ++ format_opt E_STAT_APP_ID
    ++ "&startPosition=" ++ str_int startPosition
    ++ "&limit=" ++ str_int limit in
  if truthy data_set_id && negb (truthy stats_data_id) then
    make_e_stat_request
      (url ++ "&dataSetId=" ++ format_opt data_set_id) default_timeout
  else if truthy stats_data_id && negb (truthy data_set_id) then
    make_e_stat_request
      (url ++ "&statsDataId=" ++ format_opt stats_data_id) default_timeout
  else
    raise (ValueError
      "Either 'data_set_id' or 'stats_data_id' must be provided, but not both.").

Definition get_e_stat_ref_dataset (data_set_id : string) : Eff string :=
  let url :=
    E_STAT_API_BASE_URL ++ "refDataset?appId=" ++ format_opt E_STAT_APP_ID in
  make_e_stat_request url default_timeout.

Definition get_e_stat_data_catalog
    (search_word surveyYears : string) (startPosition limit : Z)
  : Eff string :=
  let url :=
    E_STAT_API_BASE_URL ++ "getDataCatalog?appId="
    ++ format_opt E_STAT_APP_ID
    ++ "&searchWord=" ++ search_word ++ "&surveyYears=" ++ surveyYears
    ++ "&startPosition=" ++ str_int startPosition
    ++ "&limit=" ++ str_int limit in
  make_e_stat_request url default_timeout.

End Server.

(** ** Vocabulary of the specification *)

(** The four failure categories, and the order in which the handler of
    [make_e_stat_request] tries them. *)
Inductive Category : Type :=
| timeout
| connection_error
| http_error
| unknown_error.

Definition classify (e : Exc) : Category :=
  if is_TimeoutException e then timeout
  else if is_ConnectError e then connection_error
  else match as_HTTPStatusError e with
       | Some _ => http_error
       | None => unknown_error
       end.

Definition status_name (c : Category) : string :=
  match c with
  | timeout => "timeout"
  | connection_error => "connection_error"
  | http_error => "http_error"
  | unknown_error => "unknown_error"
  end.

(** The structured error record of the specification: a message, a status
    kind and, optionally, a numeric status code. *)
Record ErrorRecord : Type := mkErrorRecord {
  err_message : string;
  err_status : string;
  err_status_code : option Z
}.

(** The text of an error record: a JSON object with the keys [ERROR],
    [status] and, when there is a code, [status_code]. *)
Definition serialize (r : ErrorRecord) : string :=
  "{" ++ quoted "ERROR" ++ ": " ++ quoted (err_message r) ++ ", "
  ++ quoted "status" ++ ": " ++ quoted (err_status r)
  ++ match err_status_code r with
     | Some c => ", " ++ quoted "status_code" ++ ": " ++ str_int c
     | None => EmptyString
     end
  ++ "}".

(** *** Reading a payload as JSON

    The payload is meant to be read as a JSON object.  [json_keys] gives
    the keys a JSON reader finds at the top level of the object: it walks
    the text once, keeping the nesting depth, whether it is inside a
    string (and whether the last character was a backslash), and whether
    the next string is in key position, that is, follows the opening
    brace or a comma of the top-level object.  On a text that is not one
    JSON object it reports every key it can read in this way. *)

Inductive JMode : Type :=
| JOut
| JStr (key : option string) (escaped : bool).

Record JState : Type := mkJ {
  j_depth : nat;
  j_in_object : bool;
  j_expect_key : bool;
  j_mode : JMode;
  j_keys : list string
}.

Definition is_dq (c : ascii) : bool := Ascii.eqb "034" c.
Definition is_backslash (c : ascii) : bool := Ascii.eqb "092" c.

(** The white space of JSON: space, tab, line feed, carriage return. *)
Definition is_json_space (c : ascii) : bool :=
  Ascii.eqb " " c || Ascii.eqb "009" c || Ascii.eqb "010" c
  || Ascii.eqb "013" c.

Definition push (key : option string) (c : ascii) : option string :=
  match key with
  | Some k => Some (k ++ String c EmptyString)
  | None => None
  end.

Definition jstep (st : JState) (c : ascii) : JState :=
  let d := j_depth st in
  let o := j_in_object st in
  let ks := j_keys st in
  match j_mode st with
  | JStr key escaped =>
      if escaped then mkJ d o (j_expect_key st) (JStr (push key c) false) ks
      else if is_backslash c then
        mkJ d o (j_expect_key st) (JStr (push key c) true) ks
      else if is_dq c then
        mkJ d o false JOut
          (match key with Some k => k :: ks | None => ks end)
      else mkJ d o (j_expect_key st) (JStr (push key c) false) ks
  | JOut =>
      if is_dq c then
        mkJ d o false
          (JStr (if j_expect_key st then Some EmptyString else None) false) ks
      else if Ascii.eqb "{" c then
        mkJ (S d) (if Nat.eqb d 0 then true else o) (Nat.eqb d 0) JOut ks
      else if Ascii.eqb "[" c then
        mkJ (S d) (if Nat.eqb d 0 then false else o) false JOut ks
      else if Ascii.eqb "}" c || Ascii.eqb "]" c then
        mkJ (Nat.pred d) o false JOut ks
      else if Ascii.eqb "," c then mkJ d o (Nat.eqb d 1 && o) JOut ks
      else if is_json_space c then st
      else mkJ d o false JOut ks
  end.

Fixpoint jscan (st : JState) (s : string) : JState :=
  match s with
  | EmptyString => st
  | String c s' => jscan (jstep st c) s'
  end.

Definition jstart : JState := mkJ 0 false false JOut [].

(** The keys of the top-level object, as they are spelled in the text. *)
Definition json_keys (payload : string) : list string :=
  rev (j_keys (jscan jstart payload)).

(** The value of a hexadecimal digit. *)
Definition hex_digit (c : ascii) : option nat :=
  let n := nat_of_ascii c in
  if (48 <=? n)%nat && (n <=? 57)%nat then Some (n - 48)%nat
  else if (65 <=? n)%nat && (n <=? 70)%nat then Some (n - 55)%nat
  else if (97 <=? n)%nat && (n <=? 102)%nat then Some (n - 87)%nat
  else None.

Definition hex4 (a b c d : ascii) : option nat :=
  match hex_digit a, hex_digit b, hex_digit c, hex_digit d with
  | Some x, Some y, Some z, Some w =>
      Some (((x * 16 + y) * 16 + z) * 16 + w)%nat
  | _, _, _, _ => None
  end.

(** The UTF-8 bytes of a code point below 65536. *)
Definition utf8 (n : nat) : string :=
  if (n <? 128)%nat then String (ascii_of_nat n) EmptyString
  else if (n <? 2048)%nat then
    String (ascii_of_nat (192 + n / 64))
      (String (ascii_of_nat (128 + n mod 64)) EmptyString)
  else
    String (ascii_of_nat (224 + n / 4096))
      (String (ascii_of_nat (128 + (n / 64) mod 64))
         (String (ascii_of_nat (128 + n mod 64)) EmptyString)).

(** The character a two-character escape stands for. *)
Definition simple_escape (c : ascii) : option ascii :=
  if Ascii.eqb "034" c then Some "034"%char
  else if Ascii.eqb "092" c then Some "092"%char
  else if Ascii.eqb "/" c then Some "/"%char
  else if Ascii.eqb "b" c then Some "008"%char
  else if Ascii.eqb "f" c then Some "012"%char
  else if Ascii.eqb "n" c then Some "010"%char
  else if Ascii.eqb "r" c then Some "013"%char
  else if Ascii.eqb "t" c then Some "009"%char
  else None.

(** The text a JSON string stands for: escapes are replaced by what they
    denote (an escape that is not one of JSON's is left as it is). *)
Fixpoint json_unescape (s : string) : string :=
  match s with
  | EmptyString => EmptyString
  | String c s' =>
      if is_backslash c then
        match s' with
        | EmptyString => String c EmptyString
        | String e s'' =>
            if Ascii.eqb "u" e then
              match s'' with
              | String h1 (String h2 (String h3 (String h4 rest))) =>
                  match hex4 h1 h2 h3 h4 with
                  | Some n => utf8 n ++ json_unescape rest
                  | None => String c (String e (json_unescape s''))
                  end
              | _ => String c (String e (json_unescape s''))
              end
            else
              match simple_escape e with
              | Some x => String x (json_unescape s'')
              | None => String c (String e (json_unescape s''))
              end
        end
      else String c (json_unescape s')
  end.

(** A character that neither ends a JSON string nor starts an escape. *)
Definition plain_char (c : ascii) : bool :=
  negb (is_dq c) && negb (is_backslash c).

(** A payload has a field [name] when one of the keys of its top-level
    object stands for [name]. *)
Definition json_has_field (name payload : string) : bool :=
  existsb (fun k => String.eqb (json_unescape k) name) (json_keys payload).

(** A URL carries the query parameter [name] when the name followed by an
    equals sign occurs in it, and carries it with [value] when the value
    follows. *)
Definition has_param (name url : string) : bool :=
  contains url (name ++ "=").

Definition has_param_value (name value url : string) : bool :=
  contains url (name ++ "=" ++ value).

(** No occurrence of [sub] can begin before [rest] and end inside it: no
    proper non-empty suffix of [sub] is a prefix of [rest]. *)
Definition no_straddle (sub rest : string) : bool :=
  forallb (fun k => negb (startswith rest (drop k sub)))
          (seq 1 (String.length sub - 1)).

(** ** Sample environments

    Concrete settings on which the program is run in the examples below. *)

(** The success test of [httpx]: the status codes 200 to 299. *)
Definition status_2xx (c : Z) : bool := (200 <=? c)%Z && (c <=? 299)%Z.

Definition sample_error_text (r : Response) : string :=
  "Client error '" ++ str_int (status_code r) ++ "'".

(** A remote service that gives the same answer to every GET. *)
Definition network_answering (r : Response) : Log -> Request -> GetOutcome :=
  fun _ _ => Responded r.

(** A network on which every GET raises the same exception. *)
Definition network_raising (e : Exc) : Log -> Request -> GetOutcome :=
  fun _ _ => Faulted e.

(** ** Facts about strings *)

Lemma append_assoc (a b c : string) : (a ++ b) ++ c = a ++ (b ++ c).
Proof.
  induction a as [|x a IH]; simpl; [reflexivity|].
  now rewrite IH.
Qed.

Lemma append_empty_r (a : string) : a ++ EmptyString = a.
Proof.
  induction a as [|x a IH]; simpl; [reflexivity|].
  now rewrite IH.
Qed.

Lemma startswith_empty (s : string) : startswith s EmptyString = true.
Proof. destruct s; reflexivity. Qed.

Lemma startswith_append (sub r : string) : startswith (sub ++ r) sub = true.
Proof.
  induction sub as [|x sub IH]; simpl; [reflexivity|].
  now rewrite Ascii.eqb_refl, IH.
Qed.

Lemma startswith_append_l (a b sub : string) :
  startswith a sub = true -> startswith (a ++ b) sub = true.
Proof.
  revert a; induction sub as [|x sub IH]; intros a H; [reflexivity|].
  destruct a as [|y a]; simpl in *; [discriminate|].
  apply andb_true_iff in H as [Hxy Ha].
  now rewrite Hxy, (IH _ Ha).
Qed.

Lemma contains_startswith (s sub : string) :
  startswith s sub = true -> contains s sub = true.
Proof.
  intros H; destruct s; simpl in *; rewrite H; reflexivity.
Qed.

Lemma contains_append_r (a b sub : string) :
  contains b sub = true -> contains (a ++ b) sub = true.
Proof.
  intros H; induction a as [|x a IH]; simpl; [exact H|].
  rewrite IH; apply orb_true_r.
Qed.

Lemma contains_append_l (a b sub : string) :
  contains a sub = true -> contains (a ++ b) sub = true.
Proof.
  induction a as [|x a IH]; intros H.
  - simpl in H. rewrite orb_false_r in H.
    destruct sub; [|discriminate].
    apply contains_startswith, startswith_empty.
  - cbn [contains] in H. apply orb_true_iff in H as [H|H].
    + apply contains_startswith, startswith_append_l, H.
    + change (String x a ++ b) with (String x (a ++ b)).
      cbn [contains]. rewrite (IH H). apply orb_true_r.
Qed.

Lemma startswith_refl (s : string) : startswith s s = true.
Proof.
  induction s as [|x s IH]; simpl; [reflexivity|].
  now rewrite Ascii.eqb_refl, IH.
Qed.

Lemma contains_suffix (a sub : string) : contains (a ++ sub) sub = true.
Proof. apply contains_append_r, contains_startswith, startswith_refl. Qed.

(** The text [sub] occurs in every text built around it. *)
Lemma contains_middle (a sub b : string) :
  contains (a ++ sub ++ b) sub = true.
Proof.
  apply contains_append_r, contains_startswith, startswith_append.
Qed.

(** A match at the head of [v ++ r] lies inside [v] or runs over its end. *)
Lemma startswith_append_inv (v r sub : string) :
  startswith (v ++ r) sub = true ->
  startswith v sub = true \/
  ((String.length v < String.length sub)%nat /\
   startswith r (drop (String.length v) sub) = true).
Proof.
  revert sub; induction v as [|x v IH]; intros sub H.
  - destruct sub as [|y sub]; [left; reflexivity|].
    right; split; [simpl; lia | exact H].
  - destruct sub as [|y sub]; [left; reflexivity|].
    simpl in H. apply andb_true_iff in H as [Hxy H].
    destruct (IH _ H) as [Hv | [Hlen Hr]].
    + left; simpl. now rewrite Hxy, Hv.
    + right; split; [simpl; lia | exact Hr].
Qed.

Lemma no_straddle_spec (sub rest : string) (k : nat) :
  no_straddle sub rest = true ->
  (1 <= k < String.length sub)%nat ->
  startswith rest (drop k sub) = false.
Proof.
  unfold no_straddle; intros H Hk.
  rewrite forallb_forall in H.
  apply negb_true_iff, H, in_seq. lia.
Qed.

(** Where no occurrence can straddle the seam, [sub] occurs in [v ++ r]
    exactly when it occurs in [v] or in [r]. *)
Lemma contains_append (v r sub : string) :
  no_straddle sub r = true ->
  contains (v ++ r) sub = contains v sub || contains r sub.
Proof.
  intros Hns; induction v as [|x v IH].
  - simpl. destruct sub as [|y sub]; [|reflexivity].
    now rewrite (contains_startswith r EmptyString (startswith_empty r)).
  - change (String x v ++ r) with (String x (v ++ r)).
    cbn [contains]. rewrite IH, <- orb_assoc. f_equal.
    destruct (startswith (String x v) sub) eqn:Hv.
    + apply (startswith_append_l _ r) in Hv. exact Hv.
    + destruct (startswith (String x (v ++ r)) sub) eqn:Hvr; [|reflexivity].
      apply (startswith_append_inv (String x v) r) in Hvr.
      destruct Hvr as [Hv' | [Hlen Hr]]; [congruence|].
      rewrite (no_straddle_spec sub r (String.length (String x v)) Hns) in Hr;
        [discriminate | simpl in *; lia].
Qed.

(** A text made of characters in [p] contains no text with a character
    outside [p]. *)
Lemma startswith_all_chars (p : ascii -> bool) (s sub : string) :
  all_chars p s = true -> startswith s sub = true -> all_chars p sub = true.
Proof.
  revert s; induction sub as [|y sub IH]; intros s Hs H; [reflexivity|].
  destruct s as [|x s]; simpl in *; [discriminate|].
  apply andb_true_iff in Hs as [Hx Hs].
  apply andb_true_iff in H as [Hxy H].
  apply Ascii.eqb_eq in Hxy; subst y.
  now rewrite Hx, (IH _ Hs H).
Qed.

Lemma contains_all_chars (p : ascii -> bool) (s sub : string) :
  all_chars p s = true -> all_chars p sub = false -> contains s sub = false.
Proof.
  intros Hs Hsub.
  destruct (contains s sub) eqn:Hc; [|reflexivity].
  exfalso. induction s as [|x s IH].
  - simpl in Hc. rewrite orb_false_r in Hc.
    rewrite (startswith_all_chars p _ _ Hs Hc) in Hsub. discriminate.
  - cbn [contains] in Hc. apply orb_true_iff in Hc as [Hc|Hc].
    + rewrite (startswith_all_chars p _ _ Hs Hc) in Hsub. discriminate.
    + simpl in Hs. apply andb_true_iff in Hs as [_ Hs]. auto.
Qed.

Lemma all_chars_uint (d : Decimal.uint) :
  all_chars numeral_char (NilEmpty.string_of_uint d) = true.
Proof. induction d; simpl; auto. Qed.

(** A decimal numeral is made of digits and at most a minus sign. *)
Lemma all_chars_str_int (n : Z) : all_chars numeral_char (str_int n) = true.
Proof.
  unfold str_int.
  destruct (Z.to_int n) as [d|d]; simpl.
  - destruct d; try reflexivity; apply (all_chars_uint (_ d)).
  - destruct d; try reflexivity; apply (all_chars_uint (_ d)).
Qed.

Lemma str_int_lacks (n : Z) (sub : string) :
  all_chars numeral_char sub = false -> contains (str_int n) sub = false.
Proof. apply contains_all_chars, all_chars_str_int. Qed.

(** ** Further facts about texts and numerals *)

Lemma length_append (a b : string) :
  String.length (a ++ b) = (String.length a + String.length b)%nat.
Proof. induction a as [|x a IH]; simpl; [reflexivity | now rewrite IH]. Qed.

Lemma append_inv_head (a b c : string) : a ++ b = a ++ c -> b = c.
Proof.
  induction a as [|x a IH]; simpl; intros H; [exact H|].
  injection H as H. auto.
Qed.

Lemma append_inv_tail (a b c : string) : a ++ c = b ++ c -> a = b.
Proof.
  revert b; induction a as [|x a IH]; intros [|y b] H.
  - reflexivity.
  - apply (f_equal String.length) in H. simpl in H.
    rewrite length_append in H. lia.
  - apply (f_equal String.length) in H. simpl in H.
    rewrite length_append in H. lia.
  - simpl in H. injection H as Hxy H. subst y. f_equal. auto.
Qed.

(** Two numerals, each followed by a character that is not part of a
    numeral, are equal when the texts they begin are equal. *)
Lemma numeral_prefix_unique (a b : string) (x y : ascii) (r r' : string) :
  all_chars numeral_char a = true ->
  all_chars numeral_char b = true ->
  numeral_char x = false ->
  numeral_char y = false ->
  a ++ String x r = b ++ String y r' ->
  a = b.
Proof.
  intros Ha Hb Hx Hy. revert b Hb.
  induction a as [|c a IH]; intros [|c' b] Hb H; simpl in *.
  - reflexivity.
  - injection H as Hc _. subst c'.
    rewrite Hx in Hb. discriminate.
  - injection H as Hc _. subst c.
    rewrite Hy in Ha. discriminate.
  - injection H as Hc H. subst c'.
    apply andb_true_iff in Ha as [_ Ha].
    apply andb_true_iff in Hb as [_ Hb].
    f_equal. apply IH; assumption.
Qed.

(** Two texts over the characters [p], each followed by a character
    outside [p], are equal when the texts they begin are equal. *)
Lemma delimited_prefix_unique
    (p : ascii -> bool) (a b : string) (x y : ascii) (r r' : string) :
  all_chars p a = true ->
  all_chars p b = true ->
  p x = false ->
  p y = false ->
  a ++ String x r = b ++ String y r' ->
  a = b.
Proof.
  intros Ha Hb Hx Hy. revert b Hb.
  induction a as [|c a IH]; intros [|c' b] Hb H; simpl in *.
  - reflexivity.
  - injection H as Hc _. subst c'.
    rewrite Hx in Hb. discriminate.
  - injection H as Hc _. subst c.
    rewrite Hy in Ha. discriminate.
  - injection H as Hc H. subst c'.
    apply andb_true_iff in Ha as [_ Ha].
    apply andb_true_iff in Hb as [_ Hb].
    f_equal. apply IH; assumption.
Qed.

(** A text that does not contain a character is made of other ones. *)
Lemma contains_char_all_chars (c : ascii) (s : string) :
  contains s (String c EmptyString) = false ->
  all_chars (fun x => negb (Ascii.eqb c x)) s = true.
Proof.
  induction s as [|x s IH]; [reflexivity|].
  cbn [contains all_chars startswith]. intros H.
  apply orb_false_iff in H as [Hx Hs].
  rewrite andb_true_r in Hx.
  now rewrite Hx, (IH Hs).
Qed.

Lemma Returned_inj (A : Type) (a b : A) : Returned a = Returned b -> a = b.
Proof. intros [= H]; exact H. Qed.

(** Reading a numeral back gives the integer it was written from. *)
Lemma int_of_str_int (n : Z) :
  option_map Z.of_int (NilZero.int_of_string (str_int n)) = Some n.
Proof.
  unfold str_int. rewrite NilZero.isi.
  - simpl. now rewrite DecimalZ.of_to.
  - destruct n; simpl; try discriminate.
    intros [= H]. now apply DecimalPos.Unsigned.to_uint_nonnil in H.
  - destruct n; simpl; try discriminate.
    intros [= H]. now apply DecimalPos.Unsigned.to_uint_nonnil in H.
Qed.

Lemma str_int_inj (n m : Z) : str_int n = str_int m -> n = m.
Proof.
  intros H. pose proof (int_of_str_int n) as Hn.
  rewrite H, int_of_str_int in Hn. congruence.
Qed.

(** ** Facts about the request executor *)

Arguments str_int : simpl never.

(** Brings both sides of an equation between formatted texts to the same
    right-nested shape. *)
Ltac norm_text :=
  unfold serialize, quoted; cbn [err_message err_status err_status_code];
  repeat rewrite append_assoc; cbn [append].

(** Runs a search over the part of a text that is written out. *)
Ltac scan_text :=
  cbn [append contains startswith Ascii.eqb Bool.eqb andb orb].

(** ** Facts about the JSON reading *)

Lemma jscan_append (st : JState) (a b : string) :
  jscan st (a ++ b) = jscan (jscan st a) b.
Proof.
  revert st; induction a as [|x a IH]; intros st; simpl; [reflexivity|].
  apply IH.
Qed.

Lemma all_chars_impl (p q : ascii -> bool) (s : string) :
  (forall c, p c = true -> q c = true) ->
  all_chars p s = true -> all_chars q s = true.
Proof.
  intros Hpq; induction s as [|c s IH]; simpl; [reflexivity|].
  intros H; apply andb_true_iff in H as [Hc Hs].
  now rewrite (Hpq _ Hc), IH.
Qed.

Lemma contains_dq_all_chars (s : string) :
  contains s dq = false -> all_chars (fun c => negb (is_dq c)) s = true.
Proof.
  induction s as [|c s IH]; [reflexivity|].
  cbn [contains all_chars]. intros H.
  apply orb_false_iff in H as [Hc Hs].
  unfold dq in Hc; cbn [startswith] in Hc. rewrite andb_true_r in Hc.
  rewrite (IH Hs). unfold is_dq. now rewrite Hc.
Qed.

Lemma numeral_char_plain (c : ascii) :
  numeral_char c = true -> plain_char c = true.
Proof.
  destruct c as [[] [] [] [] [] [] [] []]; intros H;
    first [reflexivity | discriminate H].
Qed.

Lemma jstep_numeral_outside
    (d : nat) (o : bool) (ks : list string) (c : ascii) :
  numeral_char c = true ->
  jstep (mkJ d o false JOut ks) c = mkJ d o false JOut ks.
Proof.
  destruct c as [[] [] [] [] [] [] [] []]; intros H;
    first [reflexivity | discriminate H].
Qed.

(** Inside a string that is not a key, plain characters change nothing. *)
Lemma jscan_string_plain
    (d : nat) (o x : bool) (ks : list string) (v : string) :
  all_chars plain_char v = true ->
  jscan (mkJ d o x (JStr None false) ks) v = mkJ d o x (JStr None false) ks.
Proof.
  induction v as [|c v IH]; [reflexivity|].
  cbn [all_chars jscan]. intros H.
  apply andb_true_iff in H as [Hc Hv].
  unfold plain_char in Hc. apply andb_true_iff in Hc as [Hq Hb].
  apply negb_true_iff in Hq, Hb.
  unfold jstep;
    cbn [j_mode j_depth j_in_object j_keys j_expect_key push].
  rewrite Hq, Hb. apply IH, Hv.
Qed.

(** Inside a string that is not a key, a text without a double quote
    leaves the reader inside that string. *)
Lemma jscan_string_no_dq
    (d : nat) (o x : bool) (ks : list string) (v : string) :
  all_chars (fun c => negb (is_dq c)) v = true ->
  forall escaped, exists escaped',
    jscan (mkJ d o x (JStr None escaped) ks) v =
    mkJ d o x (JStr None escaped') ks.
Proof.
  induction v as [|c v IH]; intros H escaped;
    [exists escaped; reflexivity|].
  cbn [all_chars] in H. apply andb_true_iff in H as [Hq Hv].
  apply negb_true_iff in Hq.
  cbn [jscan]. unfold jstep;
    cbn [j_mode j_depth j_in_object j_keys j_expect_key push].
  destruct escaped; [apply IH, Hv|].
  destruct (is_backslash c); [apply IH, Hv|].
  rewrite Hq. apply IH, Hv.
Qed.

(** Outside a string, a numeral in value position changes nothing. *)
Lemma jscan_numeral_outside
    (d : nat) (o : bool) (ks : list string) (v : string) :
  all_chars numeral_char v = true ->
  jscan (mkJ d o false JOut ks) v = mkJ d o false JOut ks.
Proof.
  induction v as [|c v IH]; [reflexivity|].
  cbn [all_chars jscan]. intros H.
  apply andb_true_iff in H as [Hc Hv].
  rewrite (jstep_numeral_outside d o ks c Hc). apply IH, Hv.
Qed.

Lemma str_int_plain (n : Z) : all_chars plain_char (str_int n) = true.
Proof.
  apply (all_chars_impl numeral_char); [apply numeral_char_plain|].
  apply all_chars_str_int.
Qed.

(** The reader run over a text in three parts. *)
Lemma jscan_cut (p v r : string) (st : JState) :
  jscan jstart p = st ->
  jscan jstart (p ++ v ++ r) = jscan (jscan st v) r.
Proof. intros <-. now rewrite !jscan_append. Qed.

(** The keys of the payload of a timeout. *)
Lemma json_keys_timeout (t : Z) :
  json_keys (serialize (mkErrorRecord
    ("タイムアウトエラーが発生しました。現在のタイムアウト設定: "
     ++ str_int t ++ "秒") "timeout" None))
  = ["ERROR"; "status"].
Proof.
  replace (serialize _) with
    (("{" ++ dq ++ "ERROR" ++ dq ++ ": " ++ dq
      ++ "タイムアウトエラーが発生しました。現在のタイムアウト設定: ")
     ++ str_int t
     ++ ("秒" ++ dq ++ ", " ++ dq ++ "status" ++ dq ++ ": " ++ dq
         ++ "timeout" ++ dq ++ "}"))
    by (norm_text; reflexivity).
  unfold json_keys.
  match goal with
  | |- context [jscan jstart (?p ++ ?v ++ ?r)] =>
      rewrite (jscan_cut p v r (mkJ 1 true false (JStr None false) ["ERROR"])
                 eq_refl)
  end.
  rewrite (jscan_string_plain _ _ _ _ _ (str_int_plain t)).
  reflexivity.
Qed.

(** The keys of the payload of an HTTP status error. *)
Lemma json_keys_http_error (c : Z) :
  json_keys (serialize (mkErrorRecord
    ("HTTPエラー（ステータスコード: " ++ str_int c ++ "）が発生しました。")
    "http_error" (Some c)))
  = ["ERROR"; "status"; "status_code"].
Proof.
  replace (serialize _) with
    (("{" ++ dq ++ "ERROR" ++ dq ++ ": " ++ dq
      ++ "HTTPエラー（ステータスコード: ")
     ++ str_int c
     ++ ("）が発生しました。" ++ dq ++ ", " ++ dq ++ "status" ++ dq ++ ": "
         ++ dq ++ "http_error" ++ dq ++ ", " ++ dq ++ "status_code" ++ dq
         ++ ": ")
     ++ str_int c ++ "}")
    by (norm_text; reflexivity).
  unfold json_keys.
  match goal with
  | |- context [jscan jstart (?p ++ ?v ++ ?r)] =>
      rewrite (jscan_cut p v r (mkJ 1 true false (JStr None false) ["ERROR"])
                 eq_refl)
  end.
  rewrite (jscan_string_plain _ _ _ _ _ (str_int_plain c)).
  match goal with
  | |- context [jscan ?st (?m ++ ?v ++ ?r)] =>
      rewrite (jscan_append st m);
      change (jscan st m)
        with (mkJ 1 true false JOut ["status_code"; "status"; "ERROR"]);
      rewrite (jscan_append _ v)
  end.
  rewrite (jscan_numeral_outside _ _ _ _ (all_chars_str_int c)).
  reflexivity.
Qed.

(** The payload of an unclassified fault whose description has no double
    quote has no [status_code] field. *)
Lemma json_no_status_code_unknown (d : string) :
  contains d dq = false ->
  json_has_field "status_code"
    (serialize (mkErrorRecord
       ("予期せぬエラーが発生しました: " ++ d) "unknown_error" None))
  = false.
Proof.
  intros Hd.
  replace (serialize _) with
    (("{" ++ dq ++ "ERROR" ++ dq ++ ": " ++ dq
      ++ "予期せぬエラーが発生しました: ")
     ++ d
     ++ (dq ++ ", " ++ dq ++ "status" ++ dq ++ ": " ++ dq ++ "unknown_error"
         ++ dq ++ "}"))
    by (norm_text; reflexivity).
  unfold json_has_field, json_keys.
  match goal with
  | |- context [jscan jstart (?p ++ ?v ++ ?r)] =>
      rewrite (jscan_cut p v r (mkJ 1 true false (JStr None false) ["ERROR"])
                 eq_refl)
  end.
  destruct (jscan_string_no_dq 1 true false ["ERROR"] d
              (contains_dq_all_chars d Hd) false) as [escaped' ->].
  destruct escaped'; reflexivity.
Qed.

Section ExecutorFacts.

Variable is_success : Z -> bool.
Variable status_error_text : Response -> string.
Variable network : Log -> Request -> GetOutcome.

Local Abbreviation make_request :=
  (make_e_stat_request is_success status_error_text network).

(** The executor makes one GET and returns a text, whatever the GET does. *)
Lemma make_e_stat_request_returns (url : string) (t : Z) (log : Log) :
  exists body : string,
    make_request url t log = (Returned body, (log ++ [mkRequest url t])%list).
Proof.
  unfold make_e_stat_request, try_except, bind, client_get, raise_for_status.
  destruct (network log (mkRequest url t)) as [r|e].
  - destruct (is_success (status_code r)); cbn; eexists; reflexivity.
  - destruct (is_TimeoutException e); [cbn; eexists; reflexivity|].
    destruct (is_ConnectError e); [cbn; eexists; reflexivity|].
    destruct (as_HTTPStatusError e); cbn; eexists; reflexivity.
Qed.

(** What the executor does with a fault of the GET. *)
Lemma make_e_stat_request_fault (url : string) (t : Z) (log : Log) (e : Exc) :
  network log (mkRequest url t) = Faulted e ->
  make_request url t log =
  (Returned
     (match classify e with
      | timeout =>
          serialize (mkErrorRecord
            ("タイムアウトエラーが発生しました。現在のタイムアウト設定: "
             ++ str_int t ++ "秒") "timeout" None)
      | connection_error =>
          serialize (mkErrorRecord
            "E-Stat APIサーバーへの接続に失敗しました。ネットワーク接続を確認してください。"
            "connection_error" None)
      | http_error =>
          serialize (mkErrorRecord
            ("HTTPエラー（ステータスコード: "
             ++ match as_HTTPStatusError e with
                | Some c => str_int c
                | None => EmptyString
                end
             ++ "）が発生しました。") "http_error" (as_HTTPStatusError e))
      | unknown_error =>
          serialize (mkErrorRecord
            ("予期せぬエラーが発生しました: " ++ exc_str e)
            "unknown_error" None)
      end),
   (log ++ [mkRequest url t])%list).
Proof.
  intros H.
  unfold make_e_stat_request, try_except, bind, client_get, classify.
  rewrite H.
  destruct (is_TimeoutException e); [cbn [ret]; norm_text; reflexivity|].
  destruct (is_ConnectError e); [cbn [ret]; norm_text; reflexivity|].
  destruct (as_HTTPStatusError e); cbn [ret]; norm_text; reflexivity.
Qed.

(** What the executor does with an answer whose status is not a success. *)
Lemma make_e_stat_request_status (url : string) (t : Z) (log : Log)
    (r : Response) :
  network log (mkRequest url t) = Responded r ->
  is_success (status_code r) = false ->
  make_request url t log =
  (Returned
     (serialize (mkErrorRecord
        ("HTTPエラー（ステータスコード: " ++ str_int (status_code r)
         ++ "）が発生しました。") "http_error" (Some (status_code r)))),
   (log ++ [mkRequest url t])%list).
Proof.
  intros H Hs.
  unfold make_e_stat_request, try_except, bind, client_get, raise_for_status.
  rewrite H, Hs. cbn. norm_text. reflexivity.
Qed.


(** C3.  A failure of the GET is classified in the order timeout,
    connection failure, HTTP status error, anything else.  A timeout gives
    the record with status [timeout] whose message contains the configured
    timeout; a connection failure gives status [connection_error]; an HTTP
    status error, and likewise an answer whose status is not a success,
    gives status [http_error] with the code both in the message and in the
    [status_code] field; any other fault gives status [unknown_error] with
    [str(e)] in the message.  In each case the GET is the one request
    logged. *)
Theorem make_e_stat_request_classification
    (url : string) (t : Z) (log : Log) :
  let req := mkRequest url t in
  let gives (r : ErrorRecord) :=
    make_request url t log = (Returned (serialize r), (log ++ [req])%list) in
  (forall e : Exc, network log req = Faulted e ->
     (is_TimeoutException e = true ->
      let msg := "タイムアウトエラーが発生しました。現在のタイムアウト設定: "
                 ++ str_int t ++ "秒" in
      gives (mkErrorRecord msg "timeout" None) /\
      contains msg (str_int t) = true) /\
     (is_TimeoutException e = false -> is_ConnectError e = true ->
      gives (mkErrorRecord
        "E-Stat APIサーバーへの接続に失敗しました。ネットワーク接続を確認してください。"
        "connection_error" None)) /\
     (forall c : Z,
      is_TimeoutException e = false -> is_ConnectError e = false ->
      as_HTTPStatusError e = Some c ->
      let msg := "HTTPエラー（ステータスコード: " ++ str_int c
                 ++ "）が発生しました。" in
      gives (mkErrorRecord msg "http_error" (Some c)) /\
      contains msg (str_int c) = true) /\
     (is_TimeoutException e = false -> is_ConnectError e = false ->
      as_HTTPStatusError e = None ->
      let msg := "予期せぬエラーが発生しました: " ++ exc_str e in
      gives (mkErrorRecord msg "unknown_error" None) /\
      contains msg (exc_str e) = true) /\
     (exists (msg : string) (code : option Z),
        gives (mkErrorRecord msg (status_name (classify e)) code))) /\
  (forall r : Response, network log req = Responded r ->
     is_success (status_code r) = false ->
     let msg := "HTTPエラー（ステータスコード: " ++ str_int (status_code r)
                ++ "）が発生しました。" in
     gives (mkErrorRecord msg "http_error" (Some (status_code r))) /\
     contains msg (str_int (status_code r)) = true).
Proof.
  intros req gives; subst gives; split.
  - intros e H.
    pose proof (make_e_stat_request_fault url t log e H) as Hf.
    unfold classify in *.
    split; [|split; [|split; [|split]]].
    + intros Ht; rewrite Ht in Hf.
      split; [exact Hf | apply contains_middle].
    + intros Ht Hc; rewrite Ht, Hc in Hf; exact Hf.
    + intros c Ht Hc Hh; rewrite Ht, Hc, Hh in Hf.
      split; [exact Hf | apply contains_middle].
    + intros Ht Hc Hh; rewrite Ht, Hc, Hh in Hf.
      split; [exact Hf | apply contains_suffix].
    + destruct (is_TimeoutException e); [eauto|].
      destruct (is_ConnectError e); [eauto|].
      destruct (as_HTTPStatusError e); eauto.
  - intros r H Hs; split.
    + apply make_e_stat_request_status; assumption.
    + apply contains_middle.
Qed.

(** C4.  Whatever the GET does (answer with any status, or raise any
    exception), the executor returns a text and raises nothing; the GET is
    the one request it makes. *)
Theorem make_e_stat_request_absorbs_faults (url : string) (t : Z) (log : Log) :
  exists body : string,
    make_request url t log = (Returned body, (log ++ [mkRequest url t])%list).
Proof. apply make_e_stat_request_returns. Qed.

(** C7.  When the GET answers with a success status, the executor returns
    the text of the answer as it is. *)
Theorem make_e_stat_request_success
    (url : string) (t : Z) (log : Log) (r : Response) :
  network log (mkRequest url t) = Responded r ->
  is_success (status_code r) = true ->
  make_request url t log = (Returned (text r), (log ++ [mkRequest url t])%list).
Proof.
  intros H Hs.
  unfold make_e_stat_request, try_except, bind, client_get, raise_for_status.
  rewrite H, Hs. reflexivity.
Qed.

(** C10, as amended.  Read as JSON, the payload of a timeout or of a
    connection failure has exactly the keys [ERROR] and [status], whatever
    the description of the fault says; the payload of an HTTP status
    error, and of an answer whose status is not a success, has exactly
    the keys [ERROR], [status] and [status_code]; the payload of an
    unclassified fault has no [status_code] field provided its
    description [str(e)] contains no double quote.  So, unless the fault
    is unclassified and has a double quote in its description, the
    payload has a [status_code] field exactly when the category is
    [http_error]. *)
Theorem status_code_field_iff_http_error (url : string) (t : Z) (log : Log) :
  let req := mkRequest url t in
  (forall e : Exc, network log req = Faulted e ->
     exists payload : string,
       make_request url t log = (Returned payload, (log ++ [req])%list) /\
       match classify e with
       | timeout | connection_error =>
           json_keys payload = ["ERROR"; "status"]
       | http_error =>
           json_keys payload = ["ERROR"; "status"; "status_code"]
       | unknown_error =>
           contains (exc_str e) dq = false ->
           json_has_field "status_code" payload = false
       end /\
       ((classify e = unknown_error -> contains (exc_str e) dq = false) ->
        (json_has_field "status_code" payload = true <->
         classify e = http_error))) /\
  (forall r : Response, network log req = Responded r ->
     is_success (status_code r) = false ->
     exists payload : string,
       make_request url t log = (Returned payload, (log ++ [req])%list) /\
       json_keys payload = ["ERROR"; "status"; "status_code"] /\
       json_has_field "status_code" payload = true).
Proof.
  intros req; split.
  - intros e H. eexists. split; [apply make_e_stat_request_fault, H|].
    unfold classify.
    destruct (is_TimeoutException e).
    { split; [apply json_keys_timeout|]. intros _.
      unfold json_has_field. rewrite json_keys_timeout.
      split; intros; discriminate. }
    destruct (is_ConnectError e).
    { split; [reflexivity|]. intros _. split; intros; discriminate. }
    destruct (as_HTTPStatusError e) as [c|].
    { split; [apply json_keys_http_error|]. intros _.
      unfold json_has_field. rewrite json_keys_http_error.
      split; reflexivity. }
    split; [apply json_no_status_code_unknown|]. intros Hd.
    rewrite (json_no_status_code_unknown _ (Hd eq_refl)).
    split; intros; discriminate.
  - intros r H Hs. eexists. split; [|split].
    + exact (make_e_stat_request_status url t log r H Hs).
    + apply json_keys_http_error.
    + unfold json_has_field. rewrite json_keys_http_error. reflexivity.
Qed.

End ExecutorFacts.

(** ** Facts about the operations *)

Lemma contains_cons (c : ascii) (s sub : string) :
  contains s sub = true -> contains (String c s) sub = true.
Proof. intros H; cbn [contains]; rewrite H; apply orb_true_r. Qed.

(** Finds an occurrence of a text by walking along the text searched. *)
Ltac find_text :=
  cbn [append];
  repeat first
    [ apply contains_startswith;
      cbn [append startswith Ascii.eqb Bool.eqb andb];
      first [ reflexivity | apply startswith_refl | apply startswith_append ]
    | apply contains_cons
    | apply contains_append_r ].

(** The URL of the specific-data operation with a dataset identifier
    carries the name of the other parameter only inside the configured
    application identifier or inside the identifier itself. *)
Lemma scan_dataSetId_url (app id : string) (sp lim : Z) :
  has_param "statsDataId"
    (E_STAT_API_BASE_URL ++ "getSimpleStatsData?appId=" ++ app
     ++ "&startPosition=" ++ str_int sp ++ "&limit=" ++ str_int lim
     ++ "&dataSetId=" ++ id)
  = has_param "statsDataId" app || has_param "statsDataId" id.
Proof.
  unfold has_param, E_STAT_API_BASE_URL. scan_text.
  rewrite contains_append by reflexivity. f_equal. scan_text.
  rewrite contains_append by reflexivity.
  rewrite str_int_lacks by reflexivity. scan_text.
  rewrite contains_append by reflexivity.
  rewrite str_int_lacks by reflexivity. scan_text.
  reflexivity.
Qed.


Section OperationFacts.

Variable E_STAT_APP_ID : option string.
Variable is_success : Z -> bool.
Variable status_error_text : Response -> string.
Variable network : Log -> Request -> GetOutcome.

Local Abbreviation make_request :=
  (make_e_stat_request is_success status_error_text network).
Local Abbreviation specific_data :=
  (get_specific_e_stat_data E_STAT_APP_ID is_success status_error_text network).
Local Abbreviation ref_dataset :=
  (get_e_stat_ref_dataset E_STAT_APP_ID is_success status_error_text network).
Local Abbreviation search_tables :=
  (search_e_stat_tables E_STAT_APP_ID is_success status_error_text network).
Local Abbreviation app_id := (format_opt E_STAT_APP_ID).

(** The specific-data operation raises and makes no GET when its two
    identifiers have the same truth value. *)
Lemma specific_data_rejects
    (d s : option string) (sp lim : Z) (log : Log) :
  truthy d = truthy s ->
  specific_data d s sp lim log =
  (Raised (ValueError
     "Either 'data_set_id' or 'stats_data_id' must be provided, but not both."),
   log).
Proof.
  intros H. unfold get_specific_e_stat_data. rewrite H.
  destruct (truthy s); reflexivity.
Qed.

(** With a dataset identifier alone it makes one GET, of this URL. *)
Lemma specific_data_by_dataset
    (d s : option string) (sp lim : Z) (log : Log) :
  truthy d = true -> truthy s = false ->
  exists body : string,
    specific_data d s sp lim log =
    (Returned body,
     (log ++ [mkRequest
        (E_STAT_API_BASE_URL ++ "getSimpleStatsData?appId=" ++ app_id
         ++ "&startPosition=" ++ str_int sp ++ "&limit=" ++ str_int lim
         ++ "&dataSetId=" ++ format_opt d) default_timeout])%list).
Proof.
  intros Hd Hs. unfold get_specific_e_stat_data. rewrite Hd, Hs.
  cbn [andb negb]. repeat rewrite append_assoc.
  apply make_e_stat_request_returns.
Qed.

(** With a table identifier alone it makes one GET, of this URL. *)
Lemma specific_data_by_table
    (d s : option string) (sp lim : Z) (log : Log) :
  truthy s = true -> truthy d = false ->
  exists body : string,
    specific_data d s sp lim log =
    (Returned body,
     (log ++ [mkRequest
        (E_STAT_API_BASE_URL ++ "getSimpleStatsData?appId=" ++ app_id
         ++ "&startPosition=" ++ str_int sp ++ "&limit=" ++ str_int lim
         ++ "&statsDataId=" ++ format_opt s) default_timeout])%list).
Proof.
  intros Hs Hd. unfold get_specific_e_stat_data. rewrite Hd, Hs.
  cbn [andb negb]. repeat rewrite append_assoc.
  apply make_e_stat_request_returns.
Qed.

(** C1.  When neither identifier is supplied or both are (an identifier
    counts as supplied when the code's truth test accepts it: it is
    neither [None] nor empty), the specific-data operation raises before
    the executor is reached: the log of GETs is unchanged. *)
Theorem get_specific_e_stat_data_rejects_preflight
    (d s : option string) (sp lim : Z) (log : Log) :
  truthy d = truthy s ->
  exists e : Exc, specific_data d s sp lim log = (Raised e, log).
Proof.
  intros H. eexists. apply specific_data_rejects, H.
Qed.


(** C5.  The reference-dataset operation makes one GET whose URL is the
    [refDataset] endpoint followed by the [appId] parameter and nothing
    else; the dataset identifier is not in it, and any two identifiers
    give the same run. *)
Theorem get_e_stat_ref_dataset_ignores_identifier
    (data_set_id other_id : string) (log : Log) :
  (exists body : string,
     ref_dataset data_set_id log =
     (Returned body,
      (log ++ [mkRequest
         (E_STAT_API_BASE_URL ++ "refDataset?appId=" ++ app_id)
         default_timeout])%list)) /\
  ref_dataset data_set_id log = ref_dataset other_id log.
Proof.
  split; [|reflexivity].
  unfold get_e_stat_ref_dataset. apply make_e_stat_request_returns.
Qed.

(** C6.  The table-search operation makes one GET, with the timeout 30,
    of the URL written out below: the [getStatsList] endpoint, then
    [appId] with the configured application identifier (the text [None]
    when it is not set), then [searchWord], [limit], [surveyYears] and
    [startPosition] with the argument values as they are, the two
    integers as decimal numerals that read back as the arguments.  For
    the search word [東京 AND 人口], the years [2023], start position 1 and
    limit 100 the URL is the second one written out below. *)
Theorem search_e_stat_tables_url
    (search_word surveyYears : string) (startPosition limit : Z) (log : Log) :
  let app :=
    match E_STAT_APP_ID with
    | Some configured => configured
    | None => "None"
    end in
  let url :=
    "https://api.e-stat.go.jp/rest/3.0/app/getStatsList?appId=" ++ app
    ++ "&searchWord=" ++ search_word ++ "&limit=" ++ str_int limit
    ++ "&surveyYears=" ++ surveyYears
    ++ "&startPosition=" ++ str_int startPosition in
  (exists body : string,
     search_tables search_word surveyYears startPosition limit log =
     (Returned body, (log ++ [mkRequest url 30])%list)) /\
  startswith url "https://api.e-stat.go.jp/rest/3.0/app/getStatsList?" = true /\
  has_param_value "appId" app url = true /\
  has_param_value "searchWord" search_word url = true /\
  has_param_value "surveyYears" surveyYears url = true /\
  has_param_value "startPosition" (str_int startPosition) url = true /\
  has_param_value "limit" (str_int limit) url = true /\
  option_map Z.of_int (NilZero.int_of_string (str_int startPosition))
    = Some startPosition /\
  option_map Z.of_int (NilZero.int_of_string (str_int limit)) = Some limit /\
  (exists body : string,
     search_tables "東京 AND 人口" "2023" 1 100 log =
     (Returned body,
      (log ++ [mkRequest
         ("https://api.e-stat.go.jp/rest/3.0/app/getStatsList?appId="
          ++ app
          ++ "&searchWord=東京 AND 人口&limit=100&surveyYears=2023&startPosition=1")
         30])%list)).
Proof.
  intros app url.
  assert (Hscenario : exists body : string,
     search_tables "東京 AND 人口" "2023" 1 100 log =
     (Returned body,
      (log ++ [mkRequest
         ("https://api.e-stat.go.jp/rest/3.0/app/getStatsList?appId="
          ++ app
          ++ "&searchWord=東京 AND 人口&limit=100&surveyYears=2023&startPosition=1")
         30])%list)).
  { subst app. unfold search_e_stat_tables.
    destruct E_STAT_APP_ID; apply make_e_stat_request_returns. }
  assert (Hsame :
    search_tables search_word surveyYears startPosition limit log
    = make_request url 30 log).
  { subst url app. unfold search_e_stat_tables.
    destruct E_STAT_APP_ID; reflexivity. }
  destruct (make_e_stat_request_returns is_success status_error_text network
              url 30 log) as [body Hb].
  split; [exists body; rewrite Hsame; exact Hb|].
  subst url. clearbody app. clear Hsame Hb.
  split; [reflexivity|].
  unfold has_param_value.
  do 5 (split; [solve [find_text]|]).
  split; [apply int_of_str_int|].
  split; [apply int_of_str_int | exact Hscenario].
Qed.

(** C8.  The rejection of the specific-data operation is an exception, a
    [ValueError] raised with no GET made; a failure of the network never
    is: the executor returns a text whatever the GET does, and so does the
    specific-data operation once it has accepted its identifiers. *)
Theorem rejection_raised_network_failure_returned :
  (forall (d s : option string) (sp lim : Z) (log : Log),
     truthy d = truthy s ->
     exists e : Exc,
       specific_data d s sp lim log = (Raised e, log) /\
       exc_class e = "ValueError") /\
  (forall (d s : option string) (sp lim : Z) (log : Log),
     truthy d <> truthy s ->
     exists (url body : string),
       specific_data d s sp lim log =
       (Returned body, (log ++ [mkRequest url default_timeout])%list)) /\
  (forall (url : string) (t : Z) (log : Log),
     exists body : string,
       make_request url t log =
       (Returned body, (log ++ [mkRequest url t])%list)).
Proof.
  split; [|split].
  - intros d s sp lim log H. eexists. split.
    + apply specific_data_rejects, H.
    + reflexivity.
  - intros d s sp lim log H.
    destruct (truthy d) eqn:Hd, (truthy s) eqn:Hs; try congruence.
    + destruct (specific_data_by_dataset d s sp lim log Hd Hs) as [body Hb].
      eauto.
    + destruct (specific_data_by_table d s sp lim log Hs Hd) as [body Hb].
      eauto.
  - intros url t log. apply make_e_stat_request_returns.
Qed.

(** C9.  An empty identifier counts as not supplied.  With an empty
    dataset identifier and no table identifier the operation does what it
    does with no identifier at all: it raises, and makes no GET.  With a
    non-empty dataset identifier and an empty table identifier it does
    what it does with the dataset identifier alone: one GET, whose URL
    ends with the [dataSetId] parameter and carries the name
    [statsDataId] only if the configured application identifier or the
    dataset identifier does. *)
Theorem empty_identifier_is_not_supplied
    (x : string) (sp lim : Z) (log : Log) :
  (specific_data (Some EmptyString) None sp lim log =
     specific_data None None sp lim log /\
   exists e : Exc,
     specific_data (Some EmptyString) None sp lim log = (Raised e, log)) /\
  (x <> EmptyString ->
   specific_data (Some x) (Some EmptyString) sp lim log =
     specific_data (Some x) None sp lim log /\
   exists (url body : string),
     specific_data (Some x) (Some EmptyString) sp lim log =
       (Returned body, (log ++ [mkRequest url default_timeout])%list) /\
     url = E_STAT_API_BASE_URL ++ "getSimpleStatsData?appId=" ++ app_id
           ++ "&startPosition=" ++ str_int sp ++ "&limit=" ++ str_int lim
           ++ "&dataSetId=" ++ x /\
     has_param "statsDataId" url =
       has_param "statsDataId" app_id || has_param "statsDataId" x).
Proof.
  split.
  - split; [reflexivity|].
    eexists. apply specific_data_rejects. reflexivity.
  - intros Hx. split; [reflexivity|].
    assert (Hd : truthy (Some x) = true) by (destruct x; [congruence|reflexivity]).
    destruct (specific_data_by_dataset (Some x) (Some EmptyString) sp lim log
                Hd eq_refl) as [body Hb].
    eexists; exists body. split; [exact Hb|]. split; [reflexivity|].
    apply scan_dataSetId_url.
Qed.

End OperationFacts.

(** ** The theorems at concrete inputs *)

(** C1 at the call with no identifier and at the call with both. *)
Lemma get_specific_e_stat_data_rejects_preflight_witness :
  (truthy None = truthy None /\
   exists e : Exc,
     get_specific_e_stat_data (Some "APP") status_2xx sample_error_text
       (network_answering (mkResponse 200 "ok")) None None 1 100 []
     = (Raised e, [])) /\
  (truthy (Some "X") = truthy (Some "Y") /\
   exists e : Exc,
     get_specific_e_stat_data (Some "APP") status_2xx sample_error_text
       (network_answering (mkResponse 200 "ok")) (Some "X") (Some "Y") 1 100 []
     = (Raised e, [])).
Proof.
  split; (split; [reflexivity|]).
  - apply (get_specific_e_stat_data_rejects_preflight (Some "APP") status_2xx
             sample_error_text (network_answering (mkResponse 200 "ok"))
             None None 1 100 []).
    reflexivity.
  - apply (get_specific_e_stat_data_rejects_preflight (Some "APP") status_2xx
             sample_error_text (network_answering (mkResponse 200 "ok"))
             (Some "X") (Some "Y") 1 100 []).
    reflexivity.
Defined.



(** C3 at a read timeout with the default timeout of 30. *)
Lemma make_e_stat_request_classification_witness :
  let e := mkExc "ReadTimeout" true false None "timed out" in
  network_raising e [] (mkRequest "u" 30) = Faulted e /\
  is_TimeoutException e = true /\
  make_e_stat_request status_2xx sample_error_text (network_raising e)
    "u" 30 []
  = (Returned
       (serialize (mkErrorRecord
          "タイムアウトエラーが発生しました。現在のタイムアウト設定: 30秒"
          "timeout" None)),
     [mkRequest "u" 30]).
Proof.
  intros e. split; [reflexivity|]. split; [reflexivity|].
  destruct (make_e_stat_request_classification status_2xx sample_error_text
              (network_raising e) "u" 30 []) as [Hfault _].
  destruct (Hfault e eq_refl) as [Htimeout _].
  exact (proj1 (Htimeout eq_refl)).
Defined.

(** C6 with an application identifier configured, and with none. *)
Lemma search_e_stat_tables_url_witness :
  (exists body : string,
     search_e_stat_tables (Some "0123456789abcdef") status_2xx
       sample_error_text (network_answering (mkResponse 200 "ok"))
       "東京 AND 人口" "2023" 1 100 []
     = (Returned body,
        [mkRequest
           "https://api.e-stat.go.jp/rest/3.0/app/getStatsList?appId=0123456789abcdef&searchWord=東京 AND 人口&limit=100&surveyYears=2023&startPosition=1"
           30])) /\
  (exists body : string,
     search_e_stat_tables None status_2xx
       sample_error_text (network_answering (mkResponse 200 "ok"))
       "東京 AND 人口" "2023" 1 100 []
     = (Returned body,
        [mkRequest
           "https://api.e-stat.go.jp/rest/3.0/app/getStatsList?appId=None&searchWord=東京 AND 人口&limit=100&surveyYears=2023&startPosition=1"
           30])).
Proof.
  split.
  - pose proof (search_e_stat_tables_url (Some "0123456789abcdef") status_2xx
                  sample_error_text (network_answering (mkResponse 200 "ok"))
                  "w" "y" 1 100 []) as H.
    cbv beta zeta in H.
    destruct H as (_ & _ & _ & _ & _ & _ & _ & _ & _ & Hscenario).
    exact Hscenario.
  - pose proof (search_e_stat_tables_url None status_2xx
                  sample_error_text (network_answering (mkResponse 200 "ok"))
                  "w" "y" 1 100 []) as H.
    cbv beta zeta in H.
    destruct H as (_ & _ & _ & _ & _ & _ & _ & _ & _ & Hscenario).
    exact Hscenario.
Defined.

(** C7 at an answer with status 200. *)
Lemma make_e_stat_request_success_witness :
  let r := mkResponse 200 "<GET_STATS_LIST/>" in
  network_answering r [] (mkRequest "u" 30) = Responded r /\
  status_2xx (status_code r) = true /\
  make_e_stat_request status_2xx sample_error_text (network_answering r)
    "u" 30 []
  = (Returned "<GET_STATS_LIST/>", [mkRequest "u" 30]).
Proof.
  intros r. split; [reflexivity|]. split; [reflexivity|].
  apply (make_e_stat_request_success status_2xx sample_error_text
           (network_answering r) "u" 30 [] r); reflexivity.
Defined.

(** C8 at the call with no identifier. *)
Lemma rejection_raised_network_failure_returned_witness :
  truthy None = truthy None /\
  exists e : Exc,
    get_specific_e_stat_data (Some "APP") status_2xx sample_error_text
      (network_answering (mkResponse 200 "ok")) None None 1 100 []
    = (Raised e, []) /\
    exc_class e = "ValueError".
Proof.
  split; [reflexivity|].
  destruct (rejection_raised_network_failure_returned (Some "APP") status_2xx
              sample_error_text (network_answering (mkResponse 200 "ok")))
    as [Hreject _].
  apply (Hreject None None 1%Z 100%Z []). reflexivity.
Defined.

(** C9 at the dataset identifier [X]. *)
Lemma empty_identifier_is_not_supplied_witness :
  "X" <> EmptyString /\
  exists body : string,
    get_specific_e_stat_data (Some "APP") status_2xx sample_error_text
      (network_answering (mkResponse 200 "ok")) (Some "X") (Some EmptyString)
      1 100 []
    = (Returned body,
       [mkRequest
          "https://api.e-stat.go.jp/rest/3.0/app/getSimpleStatsData?appId=APP&startPosition=1&limit=100&dataSetId=X"
          30]).
Proof.
  split; [discriminate|].
  destruct (empty_identifier_is_not_supplied (Some "APP") status_2xx
              sample_error_text (network_answering (mkResponse 200 "ok"))
              "X" 1 100 []) as [_ H].
  destruct H as [_ (url & body & Hrun & Hurl & _)]; [discriminate|].
  exists body. rewrite Hrun, Hurl. reflexivity.
Defined.

(** C10, as amended, at a fault of no special class, and at a timeout
    whose description spells out a [status_code] key. *)
Lemma status_code_field_iff_http_error_witness :
  let e := mkExc "DecodingError" false false None "bad encoding" in
  let e' := mkExc "ReadTimeout" true false None
              (dq ++ "status_code" ++ dq ++ ": 1") in
  network_raising e [] (mkRequest "u" 30) = Faulted e /\
  contains (exc_str e) dq = false /\
  (exists payload : string,
     make_e_stat_request status_2xx sample_error_text (network_raising e)
       "u" 30 []
     = (Returned payload, [mkRequest "u" 30]) /\
     (json_has_field "status_code" payload = true <->
      classify e = http_error)) /\
  (exists payload : string,
     make_e_stat_request status_2xx sample_error_text (network_raising e')
       "u" 30 []
     = (Returned payload, [mkRequest "u" 30]) /\
     json_keys payload = ["ERROR"; "status"]).
Proof.
  intros e e'. split; [reflexivity|]. split; [reflexivity|]. split.
  - destruct (status_code_field_iff_http_error status_2xx sample_error_text
                (network_raising e) "u" 30 []) as [Hfault _].
    destruct (Hfault e eq_refl) as (payload & Hrun & _ & Hiff).
    exists payload. split; [exact Hrun|].
    apply Hiff. intros _. reflexivity.
  - destruct (status_code_field_iff_http_error status_2xx sample_error_text
                (network_raising e') "u" 30 []) as [Hfault _].
    destruct (Hfault e' eq_refl) as (payload & Hrun & Hkeys & _).
    exists payload. split; [exact Hrun | exact Hkeys].
Defined.

(** C10 as stated fails: a fault of no special class whose description
    closes the message and opens a [status_code] key gives a payload of
    status [unknown_error] which, read as JSON, has the keys [ERROR],
    [status_code] and [status]. *)
Lemma status_code_field_forged :
  let e := mkExc "RuntimeError" false false None
             ("x" ++ dq ++ ", " ++ dq ++ "status_code" ++ dq ++ ": " ++ dq
              ++ "0") in
  let payload :=
    "{" ++ dq ++ "ERROR" ++ dq ++ ": " ++ dq
    ++ "予期せぬエラーが発生しました: x" ++ dq ++ ", "
    ++ dq ++ "status_code" ++ dq ++ ": " ++ dq ++ "0" ++ dq ++ ", "
    ++ dq ++ "status" ++ dq ++ ": " ++ dq ++ "unknown_error" ++ dq
    ++ "}" in
  classify e = unknown_error /\
  make_e_stat_request status_2xx sample_error_text (network_raising e)
    "u" 30 []
  = (Returned payload, [mkRequest "u" 30]) /\
  json_keys payload = ["ERROR"; "status_code"; "status"] /\
  json_has_field "status_code" payload = true.
Proof. repeat split. Qed.

(** The JSON reading on nested values, and on a text that is an array. *)
Example json_keys_nested :
  json_keys
    ("{ " ++ dq ++ "a" ++ dq ++ " : {" ++ dq ++ "b" ++ dq ++ ": [1, "
     ++ dq ++ "c" ++ dq ++ "]}, " ++ dq ++ "d" ++ dq ++ ": " ++ dq
     ++ "x, " ++ dq ++ "}")
  = ["a"; "d"] /\
  json_keys ("[" ++ dq ++ "a" ++ dq ++ ", " ++ dq ++ "b" ++ dq ++ "]") = [].
Proof. split; reflexivity. Qed.

(** The JSON reading sees a forged key however it is spelled: with a
    blank before the colon, and with an escape in the key. *)
Example forged_key_with_blank_or_escape :
  json_has_field "status_code"
    ("{" ++ dq ++ "ERROR" ++ dq ++ ": " ++ dq ++ "x" ++ dq ++ ", "
     ++ dq ++ "status_code" ++ dq ++ " : " ++ dq ++ "0" ++ dq ++ ", "
     ++ dq ++ "status" ++ dq ++ ": " ++ dq ++ "unknown_error" ++ dq ++ "}")
  = true /\
  json_has_field "status_code"
    ("{" ++ dq ++ "ERROR" ++ dq ++ ": " ++ dq ++ "x" ++ dq ++ ", "
     ++ dq ++ "\u0073tatus_code" ++ dq ++ ": " ++ dq ++ "0" ++ dq ++ ", "
     ++ dq ++ "status" ++ dq ++ ": " ++ dq ++ "unknown_error" ++ dq ++ "}")
  = true.
Proof. split; reflexivity. Qed.

(** ** Two runs written out *)

(** An answer with status 404 becomes the [http_error] record with the
    code 404 in its message and in its [status_code] field. *)
Example http_404_payload :
  make_e_stat_request status_2xx sample_error_text
    (network_answering (mkResponse 404 "Not Found")) "u" 30 []
  = (Returned
       (serialize (mkErrorRecord
          "HTTPエラー（ステータスコード: 404）が発生しました。"
          "http_error" (Some 404%Z))),
     [mkRequest "u" 30]).
Proof. reflexivity. Qed.

(** An exception that is both a timeout and a connection failure is
    reported as a timeout: the timeout test comes first. *)
Example timeout_before_connection_error :
  exists payload : string,
    make_e_stat_request status_2xx sample_error_text
      (network_raising (mkExc "ConnectTimeout" true true None "timed out"))
      "u" 30 []
    = (Returned payload, [mkRequest "u" 30]) /\
    contains payload (quoted "status" ++ ": " ++ quoted "timeout") = true.
Proof. eexists; split; reflexivity. Qed.

(** ** Further facts about the request executor *)

Section ExecutorExtras.

Variable is_success : Z -> bool.
Variable status_error_text : Response -> string.
Variable network : Log -> Request -> GetOutcome.

Local Abbreviation make_request :=
  (make_e_stat_request is_success status_error_text network).

(** The payload of an HTTP status error, cut at the status code. *)
Lemma http_error_payload_cut (c : Z) :
  serialize (mkErrorRecord
    ("HTTPエラー（ステータスコード: " ++ str_int c ++ "）が発生しました。")
    "http_error" (Some c))
  = ("{" ++ dq ++ "ERROR" ++ dq ++ ": " ++ dq
     ++ "HTTPエラー（ステータスコード: ")
    ++ str_int c
    ++ ("）が発生しました。" ++ dq ++ ", " ++ dq ++ "status" ++ dq ++ ": "
        ++ dq ++ "http_error" ++ dq ++ ", " ++ dq ++ "status_code" ++ dq
        ++ ": " ++ str_int c ++ "}").
Proof. norm_text. reflexivity. Qed.

(** The payload of an unclassified fault, cut around the description. *)
Lemma unknown_error_payload_cut (d : string) :
  serialize (mkErrorRecord
    ("予期せぬエラーが発生しました: " ++ d) "unknown_error" None)
  = ("{" ++ dq ++ "ERROR" ++ dq ++ ": " ++ dq
     ++ "予期せぬエラーが発生しました: ")
    ++ d
    ++ (dq ++ ", " ++ dq ++ "status" ++ dq ++ ": " ++ dq ++ "unknown_error"
        ++ dq ++ "}").
Proof. norm_text. reflexivity. Qed.

(** X5.  The body of an answer whose status is not a success is thrown
    away, and so is the text of the exception [raise_for_status] raises:
    two such answers with the same status code give the same result,
    whatever their bodies and whatever that text. *)
Theorem error_answer_body_is_discarded
    (other_text : Response -> string)
    (other_network : Log -> Request -> GetOutcome)
    (url : string) (t : Z) (log : Log) (r r' : Response) :
  network log (mkRequest url t) = Responded r ->
  other_network log (mkRequest url t) = Responded r' ->
  is_success (status_code r) = false ->
  status_code r' = status_code r ->
  make_request url t log =
  make_e_stat_request is_success other_text other_network url t log.
Proof.
  intros H H' Hs Hc.
  rewrite (make_e_stat_request_status is_success status_error_text network
             url t log r H Hs).
  rewrite (make_e_stat_request_status is_success other_text other_network
             url t log r' H') by (rewrite Hc; exact Hs).
  now rewrite Hc.
Qed.

(** X6.  A failed request does not stop the next one: two requests made
    one after the other both reach the network, in order, and the pair
    returns a text, whatever the first GET did. *)
Theorem failure_does_not_stop_next_request
    (url1 url2 : string) (t1 t2 : Z) (log : Log) :
  exists body : string,
    bind (make_request url1 t1) (fun _ => make_request url2 t2) log =
    (Returned body, (log ++ [mkRequest url1 t1; mkRequest url2 t2])%list).
Proof.
  unfold bind.
  destruct (make_e_stat_request_returns is_success status_error_text network
              url1 t1 log) as [b1 H1].
  rewrite H1.
  destruct (make_e_stat_request_returns is_success status_error_text network
              url2 t2 (log ++ [mkRequest url1 t1])%list) as [b2 H2].
  rewrite H2, <- app_assoc. exists b2. reflexivity.
Qed.

(** X7.  Every payload of a fault opens with the [ERROR] key and carries
    the [status] key with the name of the fault's category. *)
Theorem failure_payload_shape (url : string) (t : Z) (log : Log) (e : Exc) :
  network log (mkRequest url t) = Faulted e ->
  exists payload : string,
    make_request url t log =
      (Returned payload, (log ++ [mkRequest url t])%list) /\
    startswith payload ("{" ++ quoted "ERROR" ++ ": " ++ dq) = true /\
    contains payload
      (quoted "status" ++ ": " ++ quoted (status_name (classify e))) = true.
Proof.
  intros H. eexists. split; [apply make_e_stat_request_fault, H|].
  unfold classify.
  destruct (is_TimeoutException e);
    [split; [reflexivity | norm_text; unfold dq; find_text]|].
  destruct (is_ConnectError e); [split; reflexivity|].
  destruct (as_HTTPStatusError e);
    (split; [reflexivity | norm_text; unfold dq; find_text]).
Qed.

(** X8.  The result alone does not tell a failure from a success: for
    every fault and every success status there is a body with which a
    successful answer gives the same result as the fault. *)
Theorem success_body_can_mimic_failure
    (e : Exc) (code : Z) (url : string) (t : Z) (log : Log) :
  is_success code = true ->
  exists body : string,
    make_e_stat_request is_success status_error_text (network_raising e)
      url t log
    = make_e_stat_request is_success status_error_text
        (network_answering (mkResponse code body)) url t log.
Proof.
  intros Hs.
  destruct (make_e_stat_request_returns is_success status_error_text
              (network_raising e) url t log) as [b Hb].
  exists b. rewrite Hb. symmetry.
  apply (make_e_stat_request_success is_success status_error_text
           (network_answering (mkResponse code b)) url t log
           (mkResponse code b)); [reflexivity | exact Hs].
Qed.

(** X10.  The status code can be read back from an [http_error] payload:
    two answers whose statuses are not successes and whose results are
    equal have the same status code. *)
Theorem http_error_payload_determines_code
    (other_network : Log -> Request -> GetOutcome)
    (url : string) (t : Z) (log : Log) (r r' : Response) :
  network log (mkRequest url t) = Responded r ->
  other_network log (mkRequest url t) = Responded r' ->
  is_success (status_code r) = false ->
  is_success (status_code r') = false ->
  make_request url t log =
    make_e_stat_request is_success status_error_text other_network url t log ->
  status_code r = status_code r'.
Proof.
  intros H H' Hs Hs' Heq.
  rewrite (make_e_stat_request_status is_success status_error_text network
             url t log r H Hs) in Heq.
  rewrite (make_e_stat_request_status is_success status_error_text
             other_network url t log r' H' Hs') in Heq.
  apply (f_equal fst) in Heq. cbn [fst] in Heq.
  apply Returned_inj in Heq.
  rewrite !http_error_payload_cut in Heq.
  apply append_inv_head in Heq.
  apply str_int_inj.
  eapply numeral_prefix_unique; [| | | | exact Heq];
    first [apply all_chars_str_int | reflexivity].
Qed.

(** X11.  The description of an unclassified fault can be read back from
    its payload: two such faults whose results are equal have the same
    [str(e)]. *)
Theorem unknown_error_payload_determines_description
    (other_network : Log -> Request -> GetOutcome)
    (url : string) (t : Z) (log : Log) (e e' : Exc) :
  network log (mkRequest url t) = Faulted e ->
  other_network log (mkRequest url t) = Faulted e' ->
  classify e = unknown_error ->
  classify e' = unknown_error ->
  make_request url t log =
    make_e_stat_request is_success status_error_text other_network url t log ->
  exc_str e = exc_str e'.
Proof.
  intros H H' Hc Hc' Heq.
  rewrite (make_e_stat_request_fault is_success status_error_text network
             url t log e H) in Heq.
  rewrite (make_e_stat_request_fault is_success status_error_text
             other_network url t log e' H') in Heq.
  rewrite Hc, Hc' in Heq.
  apply (f_equal fst) in Heq. cbn [fst] in Heq.
  apply Returned_inj in Heq.
  rewrite !unknown_error_payload_cut in Heq.
  apply append_inv_head in Heq.
  apply append_inv_tail in Heq. exact Heq.
Qed.

End ExecutorExtras.

(** ** Further facts about the operations *)

Section OperationExtras.

Variable E_STAT_APP_ID : option string.
Variable is_success : Z -> bool.
Variable status_error_text : Response -> string.
Variable network : Log -> Request -> GetOutcome.

Local Abbreviation make_request :=
  (make_e_stat_request is_success status_error_text network).
Local Abbreviation specific_data :=
  (get_specific_e_stat_data E_STAT_APP_ID is_success status_error_text network).
Local Abbreviation ref_dataset :=
  (get_e_stat_ref_dataset E_STAT_APP_ID is_success status_error_text network).
Local Abbreviation search_tables :=
  (search_e_stat_tables E_STAT_APP_ID is_success status_error_text network).
Local Abbreviation meta_info :=
  (get_e_stat_meta_info E_STAT_APP_ID is_success status_error_text network).
Local Abbreviation data_catalog :=
  (get_e_stat_data_catalog E_STAT_APP_ID is_success status_error_text network).
Local Abbreviation app_id := (format_opt E_STAT_APP_ID).

(** The text every operation returns when its GET times out. *)
Local Abbreviation timeout_30 :=
  (serialize (mkErrorRecord
     "タイムアウトエラーが発生しました。現在のタイムアウト設定: 30秒"
     "timeout" None)).

(** X1.  The meta-information operation forwards its identifier: two
    calls with different table identifiers put different requests on the
    network. *)
Theorem get_e_stat_meta_info_forwards_identifier
    (stats_data_id other_id : string) (log : Log) :
  stats_data_id <> other_id ->
  snd (meta_info stats_data_id log) <> snd (meta_info other_id log).
Proof.
  intros Hne Heq. apply Hne.
  unfold get_e_stat_meta_info in Heq.
  destruct (make_e_stat_request_returns is_success status_error_text network
    (E_STAT_API_BASE_URL ++ "getMetaInfo?appId=" ++ app_id
     ++ "&statsDataId=" ++ stats_data_id) default_timeout log) as [b Hb].
  destruct (make_e_stat_request_returns is_success status_error_text network
    (E_STAT_API_BASE_URL ++ "getMetaInfo?appId=" ++ app_id
     ++ "&statsDataId=" ++ other_id) default_timeout log) as [b' Hb'].
  rewrite Hb, Hb' in Heq. cbn [snd] in Heq.
  apply app_inv_head in Heq.
  assert (Hurl :
    E_STAT_API_BASE_URL ++ "getMetaInfo?appId=" ++ app_id
      ++ "&statsDataId=" ++ stats_data_id
    = E_STAT_API_BASE_URL ++ "getMetaInfo?appId=" ++ app_id
      ++ "&statsDataId=" ++ other_id) by congruence.
  do 4 apply append_inv_head in Hurl. exact Hurl.
Qed.

(** X2.  When the search words and the survey years contain no [&], the
    request of the data-catalog operation determines its arguments: two
    calls that differ in the search word, the survey years, the start
    position or the limit put different requests on the network. *)
Theorem get_e_stat_data_catalog_request_determines_arguments
    (w y w' y' : string) (sp lim sp' lim' : Z) (log : Log) :
  contains w "&" = false -> contains y "&" = false ->
  contains w' "&" = false -> contains y' "&" = false ->
  (w, y, sp, lim) <> (w', y', sp', lim') ->
  snd (data_catalog w y sp lim log) <> snd (data_catalog w' y' sp' lim' log).
Proof.
  intros Hw Hy Hw' Hy' Hne Heq. apply Hne.
  unfold get_e_stat_data_catalog in Heq.
  destruct (make_e_stat_request_returns is_success status_error_text network
    (E_STAT_API_BASE_URL ++ "getDataCatalog?appId=" ++ app_id
     ++ "&searchWord=" ++ w ++ "&surveyYears=" ++ y
     ++ "&startPosition=" ++ str_int sp ++ "&limit=" ++ str_int lim)
    default_timeout log) as [b Hb].
  destruct (make_e_stat_request_returns is_success status_error_text network
    (E_STAT_API_BASE_URL ++ "getDataCatalog?appId=" ++ app_id
     ++ "&searchWord=" ++ w' ++ "&surveyYears=" ++ y'
     ++ "&startPosition=" ++ str_int sp' ++ "&limit=" ++ str_int lim')
    default_timeout log) as [b' Hb'].
  rewrite Hb, Hb' in Heq. cbn [snd] in Heq.
  apply app_inv_head in Heq.
  assert (Hurl :
    E_STAT_API_BASE_URL ++ "getDataCatalog?appId=" ++ app_id
      ++ "&searchWord=" ++ w ++ "&surveyYears=" ++ y
      ++ "&startPosition=" ++ str_int sp ++ "&limit=" ++ str_int lim
    = E_STAT_API_BASE_URL ++ "getDataCatalog?appId=" ++ app_id
      ++ "&searchWord=" ++ w' ++ "&surveyYears=" ++ y'
      ++ "&startPosition=" ++ str_int sp' ++ "&limit=" ++ str_int lim')
    by congruence.
  clear Heq Hb Hb'.
  do 4 apply append_inv_head in Hurl.
  apply contains_char_all_chars in Hw, Hy, Hw', Hy'.
  assert (w = w')
    by (eapply (delimited_prefix_unique _ w w'); [| | | | exact Hurl];
        first [eassumption | reflexivity]).
  subst w'. do 2 apply append_inv_head in Hurl.
  assert (y = y')
    by (eapply (delimited_prefix_unique _ y y'); [| | | | exact Hurl];
        first [eassumption | reflexivity]).
  subst y'. do 2 apply append_inv_head in Hurl.
  assert (Hsp : str_int sp = str_int sp')
    by (eapply numeral_prefix_unique; [| | | | exact Hurl];
        first [apply all_chars_str_int | reflexivity]).
  apply str_int_inj in Hsp. subst sp'.
  do 2 apply append_inv_head in Hurl.
  apply str_int_inj in Hurl. subst lim'. reflexivity.
Qed.

(** X13.  The data-catalog operation joins its arguments as they are, so
    different arguments can give the same request: a search word that
    goes on with a [surveyYears] parameter gives the very run of the call
    in which that text was the beginning of the survey years, although
    the two search words differ. *)
Theorem get_e_stat_data_catalog_arguments_collide
    (a b c : string) (sp lim : Z) (log : Log) :
  data_catalog (a ++ "&surveyYears=" ++ b) c sp lim log =
  data_catalog a (b ++ "&surveyYears=" ++ c) sp lim log /\
  a ++ "&surveyYears=" ++ b <> a.
Proof.
  split.
  - unfold get_e_stat_data_catalog. f_equal.
    repeat rewrite append_assoc. reflexivity.
  - intros H. apply (f_equal String.length) in H.
    rewrite length_append in H. simpl in H. lia.
Qed.

(** What an operation returns when the GET of its URL times out. *)
Lemma request_times_out (url : string) (log : Log) :
  (forall req : Request, exists e : Exc,
     network log req = Faulted e /\ is_TimeoutException e = true) ->
  fst (make_request url default_timeout log) = Returned timeout_30.
Proof.
  intros Hnet.
  destruct (Hnet (mkRequest url default_timeout)) as (e & He & Ht).
  rewrite (make_e_stat_request_fault is_success status_error_text network
             url default_timeout log e He).
  unfold classify. rewrite Ht. reflexivity.
Qed.

(** X3.  No operation passes a timeout of its own: each uses the default
    of 30.  When every GET times out, each of the five operations (the
    specific-data operation once it has accepted its identifiers) returns
    the same text, which reports a timeout setting of 30. *)
Theorem operations_report_default_timeout
    (w y id : string) (d s : option string) (sp lim : Z) (log : Log) :
  (forall req : Request, exists e : Exc,
     network log req = Faulted e /\ is_TimeoutException e = true) ->
  fst (search_tables w y sp lim log) = Returned timeout_30 /\
  fst (meta_info id log) = Returned timeout_30 /\
  fst (ref_dataset id log) = Returned timeout_30 /\
  fst (data_catalog w y sp lim log) = Returned timeout_30 /\
  (truthy d <> truthy s ->
   fst (specific_data d s sp lim log) = Returned timeout_30).
Proof.
  intros Hnet.
  repeat split; try (apply request_times_out; exact Hnet).
  intros Hds. unfold get_specific_e_stat_data.
  destruct (truthy d), (truthy s); try congruence; cbn [andb negb];
    apply request_times_out; exact Hnet.
Qed.

(** X4.  The two rejections of the specific-data operation cannot be told
    apart: with no identifier and with both, and whatever the other
    arguments are, it raises the same [ValueError] with the same one
    message. *)
Theorem rejections_are_indistinguishable
    (d s d' s' : option string) (sp lim sp' lim' : Z) (log : Log) :
  truthy d = truthy s ->
  truthy d' = truthy s' ->
  fst (specific_data d s sp lim log) = fst (specific_data d' s' sp' lim' log) /\
  fst (specific_data d s sp lim log) =
  Raised (ValueError
    "Either 'data_set_id' or 'stats_data_id' must be provided, but not both.").
Proof.
  intros H H'.
  rewrite (specific_data_rejects E_STAT_APP_ID is_success status_error_text
             network d s sp lim log H).
  rewrite (specific_data_rejects E_STAT_APP_ID is_success status_error_text
             network d' s' sp' lim' log H').
  split; reflexivity.
Qed.

End OperationExtras.

(** X9.  A missing application identifier is not checked: when the
    environment variable is unset, the four operations without a
    validation rule still make their GET, and its URL carries [appId]
    with the text [None]. *)
Theorem unset_app_id_is_sent_as_None
    (is_success : Z -> bool) (status_error_text : Response -> string)
    (network : Log -> Request -> GetOutcome)
    (w y id : string) (sp lim : Z) (log : Log) :
  let sent (run : Eff string) :=
    exists (url body : string),
      run log = (Returned body, (log ++ [mkRequest url default_timeout])%list)
      /\ has_param_value "appId" "None" url = true in
  sent (search_e_stat_tables None is_success status_error_text network
          w y sp lim) /\
  sent (get_e_stat_meta_info None is_success status_error_text network id) /\
  sent (get_e_stat_ref_dataset None is_success status_error_text network id) /\
  sent (get_e_stat_data_catalog None is_success status_error_text network
          w y sp lim).
Proof.
  intros sent; subst sent; cbn beta.
  unfold search_e_stat_tables, get_e_stat_meta_info, get_e_stat_ref_dataset,
    get_e_stat_data_catalog.
  repeat split.
  all: match goal with
       | |- context [make_e_stat_request _ _ _ ?u ?t ?l] =>
           destruct (make_e_stat_request_returns is_success status_error_text
                       network u t l) as [body Hb];
           exists u, body; split; [exact Hb|]
       end.
  all: unfold has_param_value, E_STAT_API_BASE_URL, format_opt; find_text.
Qed.

(** X12.  The payload of a fault that is classified (a timeout, a
    connection failure or an HTTP status error) echoes neither the URL
    nor the description of the fault: two faults of the same classified
    category, with the same status code when it is an HTTP status error,
    give the same text for any two URLs. *)
Theorem classified_payload_ignores_url_and_description
    (is_success : Z -> bool) (status_error_text : Response -> string)
    (network other_network : Log -> Request -> GetOutcome)
    (url url' : string) (t : Z) (log log' : Log) (e e' : Exc) :
  network log (mkRequest url t) = Faulted e ->
  other_network log' (mkRequest url' t) = Faulted e' ->
  classify e = classify e' ->
  classify e <> unknown_error ->
  (classify e = http_error -> as_HTTPStatusError e = as_HTTPStatusError e') ->
  fst (make_e_stat_request is_success status_error_text network url t log) =
  fst (make_e_stat_request is_success status_error_text other_network
         url' t log').
Proof.
  intros H H' Hc Hk Hcode.
  rewrite (make_e_stat_request_fault is_success status_error_text network
             url t log e H).
  rewrite (make_e_stat_request_fault is_success status_error_text
             other_network url' t log' e' H').
  rewrite <- Hc. cbn [fst].
  destruct (classify e) eqn:Hcl; try reflexivity.
  - rewrite (Hcode eq_refl). reflexivity.
  - congruence.
Qed.

(** ** The further facts at concrete inputs *)

(** X1 at two table identifiers. *)
Lemma get_e_stat_meta_info_forwards_identifier_witness :
  "0000010201" <> "0000010202" /\
  snd (get_e_stat_meta_info (Some "APP") status_2xx sample_error_text
         (network_answering (mkResponse 200 "ok")) "0000010201" [])
  <> snd (get_e_stat_meta_info (Some "APP") status_2xx sample_error_text
            (network_answering (mkResponse 200 "ok")) "0000010202" []).
Proof.
  split; [discriminate|].
  apply (get_e_stat_meta_info_forwards_identifier (Some "APP") status_2xx
           sample_error_text (network_answering (mkResponse 200 "ok"))
           "0000010201" "0000010202" []).
  discriminate.
Defined.

(** X2 at two calls that differ in the limit. *)
Lemma get_e_stat_data_catalog_request_determines_arguments_witness :
  contains "東京 AND 人口" "&" = false /\ contains "2023" "&" = false /\
  ("東京 AND 人口", "2023", 1%Z, 100%Z) <> ("東京 AND 人口", "2023", 1%Z, 10%Z) /\
  snd (get_e_stat_data_catalog (Some "APP") status_2xx sample_error_text
         (network_answering (mkResponse 200 "ok"))
         "東京 AND 人口" "2023" 1 100 [])
  <> snd (get_e_stat_data_catalog (Some "APP") status_2xx sample_error_text
            (network_answering (mkResponse 200 "ok"))
            "東京 AND 人口" "2023" 1 10 []).
Proof.
  split; [reflexivity|]. split; [reflexivity|]. split; [discriminate|].
  apply (get_e_stat_data_catalog_request_determines_arguments (Some "APP")
           status_2xx sample_error_text
           (network_answering (mkResponse 200 "ok"))
           "東京 AND 人口" "2023" "東京 AND 人口" "2023" 1 100 1 10 []);
    first [reflexivity | discriminate].
Defined.

(** X3 on a network where every GET times out. *)
Lemma operations_report_default_timeout_witness :
  let e := mkExc "ReadTimeout" true false None "timed out" in
  (forall req : Request, exists e' : Exc,
     network_raising e [] req = Faulted e' /\ is_TimeoutException e' = true) /\
  fst (get_e_stat_meta_info (Some "APP") status_2xx sample_error_text
         (network_raising e) "0000010201" [])
  = Returned
      (serialize (mkErrorRecord
         "タイムアウトエラーが発生しました。現在のタイムアウト設定: 30秒"
         "timeout" None)).
Proof.
  intros e.
  assert (Hnet : forall req : Request, exists e' : Exc,
            network_raising e [] req = Faulted e' /\
            is_TimeoutException e' = true)
    by (intros req; exists e; split; reflexivity).
  split; [exact Hnet|].
  destruct (operations_report_default_timeout (Some "APP") status_2xx
              sample_error_text (network_raising e)
              "w" "2023" "0000010201" None None 1 100 [] Hnet)
    as (_ & Hmeta & _).
  exact Hmeta.
Defined.

(** X4 at the call with no identifier and the call with both. *)
Lemma rejections_are_indistinguishable_witness :
  truthy None = truthy None /\
  truthy (Some "X") = truthy (Some "Y") /\
  fst (get_specific_e_stat_data (Some "APP") status_2xx sample_error_text
         (network_answering (mkResponse 200 "ok")) None None 1 100 [])
  = fst (get_specific_e_stat_data (Some "APP") status_2xx sample_error_text
           (network_answering (mkResponse 200 "ok")) (Some "X") (Some "Y")
           101 50 []).
Proof.
  split; [reflexivity|]. split; [reflexivity|].
  apply (rejections_are_indistinguishable (Some "APP") status_2xx
           sample_error_text (network_answering (mkResponse 200 "ok"))
           None None (Some "X") (Some "Y") 1 100 101 50 []); reflexivity.
Defined.

(** X5 at two answers with status 404 and different bodies. *)
Lemma error_answer_body_is_discarded_witness :
  let r := mkResponse 404 "no such table" in
  let r' := mkResponse 404 "<html>Not Found</html>" in
  network_answering r [] (mkRequest "u" 30) = Responded r /\
  network_answering r' [] (mkRequest "u" 30) = Responded r' /\
  status_2xx (status_code r) = false /\
  status_code r' = status_code r /\
  make_e_stat_request status_2xx sample_error_text (network_answering r)
    "u" 30 []
  = make_e_stat_request status_2xx (fun _ => "other text")
      (network_answering r') "u" 30 [].
Proof.
  intros r r'. repeat (split; [reflexivity|]).
  apply (error_answer_body_is_discarded status_2xx sample_error_text
           (network_answering r) (fun _ => "other text")
           (network_answering r') "u" 30 [] r r'); reflexivity.
Defined.

(** X7 at a connection failure. *)
Lemma failure_payload_shape_witness :
  let e := mkExc "ConnectError" false true None "all attempts failed" in
  network_raising e [] (mkRequest "u" 30) = Faulted e /\
  exists payload : string,
    make_e_stat_request status_2xx sample_error_text (network_raising e)
      "u" 30 []
    = (Returned payload, [mkRequest "u" 30]) /\
    startswith payload ("{" ++ quoted "ERROR" ++ ": " ++ dq) = true /\
    contains payload (quoted "status" ++ ": " ++ quoted "connection_error")
    = true.
Proof.
  intros e. split; [reflexivity|].
  apply (failure_payload_shape status_2xx sample_error_text
           (network_raising e) "u" 30 [] e). reflexivity.
Defined.

(** X8 at a read timeout and the status 200. *)
Lemma success_body_can_mimic_failure_witness :
  let e := mkExc "ReadTimeout" true false None "timed out" in
  status_2xx 200 = true /\
  exists body : string,
    make_e_stat_request status_2xx sample_error_text (network_raising e)
      "u" 30 []
    = make_e_stat_request status_2xx sample_error_text
        (network_answering (mkResponse 200 body)) "u" 30 [].
Proof.
  intros e. split; [reflexivity|].
  apply (success_body_can_mimic_failure status_2xx sample_error_text
           e 200 "u" 30 []). reflexivity.
Defined.

(** X10 at two answers with status 500. *)
Lemma http_error_payload_determines_code_witness :
  let r := mkResponse 500 "a" in
  let r' := mkResponse 500 "b" in
  make_e_stat_request status_2xx sample_error_text (network_answering r)
    "u" 30 []
  = make_e_stat_request status_2xx sample_error_text (network_answering r')
      "u" 30 [] /\
  status_code r = status_code r'.
Proof.
  intros r r'. split; [reflexivity|].
  apply (http_error_payload_determines_code status_2xx sample_error_text
           (network_answering r) (network_answering r') "u" 30 [] r r');
    reflexivity.
Defined.

(** X11 at two faults of different classes with the same description. *)
Lemma unknown_error_payload_determines_description_witness :
  let e := mkExc "RuntimeError" false false None "boom" in
  let e' := mkExc "DecodingError" false false None "boom" in
  classify e = unknown_error /\ classify e' = unknown_error /\
  make_e_stat_request status_2xx sample_error_text (network_raising e)
    "u" 30 []
  = make_e_stat_request status_2xx sample_error_text (network_raising e')
      "u" 30 [] /\
  exc_str e = exc_str e'.
Proof.
  intros e e'. repeat (split; [reflexivity|]).
  apply (unknown_error_payload_determines_description status_2xx
           sample_error_text (network_raising e) (network_raising e')
           "u" 30 [] e e'); reflexivity.
Defined.

(** X12 at two connection failures on different URLs. *)
Lemma classified_payload_ignores_url_and_description_witness :
  let e := mkExc "ConnectError" false true None "all attempts failed" in
  let e' := mkExc "ConnectError" false true None "name not resolved" in
  classify e = classify e' /\ classify e <> unknown_error /\
  fst (make_e_stat_request status_2xx sample_error_text (network_raising e)
         "https://api.e-stat.go.jp/rest/3.0/app/refDataset?appId=SECRET"
         30 [])
  = fst (make_e_stat_request status_2xx sample_error_text
           (network_raising e') "u" 30 []).
Proof.
  intros e e'. split; [reflexivity|]. split; [discriminate|].
  apply (classified_payload_ignores_url_and_description status_2xx
           sample_error_text (network_raising e) (network_raising e')
           _ "u" 30 [] [] e e');
    first [reflexivity | discriminate].
Defined.
